(** * Consensus parameters (src/consensus/params.h)

    A shallow embedding of [Consensus::BIP9Deployment] and
    [Consensus::Params], of the two [const] member functions of [Params],
    and of the version-bits / federation-epoch rules that read the
    parameters.  Fixed-width C++ integers are integers of [Z] together with
    the range of their type; undefined behaviour is the absence of a
    result. *)

From Stdlib Require Import ZArith Bool List String Lia.
From Stdlib Require Strings.Byte.
Import ListNotations.
Local Open Scope Z_scope.

(** ** Fixed-width integer types *)

Module IntTypes.

Definition INT_MIN : Z := - 2 ^ 31.
Definition INT_MAX : Z := 2 ^ 31 - 1.
Definition INT64_MIN : Z := - 2 ^ 63.
(** [std::numeric_limits<int64_t>::max()] *)
Definition INT64_MAX : Z := 2 ^ 63 - 1.
(** [std::numeric_limits<uint32_t>::max()] *)
Definition UINT32_MAX : Z := 2 ^ 32 - 1.
(** [size_t] on the LP64 targets the node is built for. *)
Definition SIZE_MAX : Z := 2 ^ 64 - 1.

Definition is_int (z : Z) : bool := (INT_MIN <=? z) && (z <=? INT_MAX).
Definition is_int64 (z : Z) : bool := (INT64_MIN <=? z) && (z <=? INT64_MAX).
Definition is_uint32 (z : Z) : bool := (0 <=? z) && (z <=? UINT32_MAX).
Definition is_size_t (z : Z) : bool := (0 <=? z) && (z <=? SIZE_MAX).
Definition is_uint256 (z : Z) : bool := (0 <=? z) && (z <? 2 ^ 256).

(** [a / b] on [int64_t]: the quotient truncated towards zero.  The
    behaviour is undefined when [b] is zero and when the quotient is not
    representable, which for this type is [INT64_MIN / -1] only. *)
Definition int64_div (a b : Z) : option Z :=
  if b =? 0 then None
  else if (a =? INT64_MIN) && (b =? -1) then None
  else Some (Z.quot a b).

End IntTypes.
Export IntTypes.

(** ** Types declared in other headers *)

(** [uint256] (uint256.h): a 256-bit opaque blob, zero when default
    constructed. *)
Definition uint256 : Type := Z.
Definition uint256_new : uint256 := 0.

(** [CScript] (script/script.h): a vector of bytes; [CScript()] is the
    empty script and [operator==] compares the sizes and then the bytes. *)
Definition CScript : Type := list Byte.byte.
Definition CScript_new : CScript := [].

Fixpoint CScript_eqb (a b : CScript) : bool :=
  match a, b with
  | [], [] => true
  | x :: a', y :: b' => Byte.eqb x y && CScript_eqb a' b'
  | _, _ => false
  end.

(** [CAmount] (amount.h) is [int64_t]. *)
Definition CAmount : Type := Z.

(** [CAsset] (asset.h): a wrapper around a [uint256] identifier. *)
Record CAsset : Type := mkCAsset { asset_id : uint256 }.
Definition CAsset_new : CAsset := mkCAsset uint256_new.

(** ** [enum DeploymentPos] *)

Inductive DeploymentPos : Type :=
| DEPLOYMENT_TESTDUMMY
| DEPLOYMENT_TAPROOT
| DEPLOYMENT_DYNA_FED.

Definition DeploymentPos_ordinal (p : DeploymentPos) : nat :=
  match p with
  | DEPLOYMENT_TESTDUMMY => 0%nat
  | DEPLOYMENT_TAPROOT => 1%nat
  | DEPLOYMENT_DYNA_FED => 2%nat
  end.

Definition MAX_VERSION_BITS_DEPLOYMENTS : nat := 3.

(** ** [struct BIP9Deployment] *)

Record BIP9Deployment : Type := mkBIP9Deployment {
  bit : Z;                     (* int *)
  nStartTime : Z;              (* int64_t, a block height *)
  nTimeout : Z;                (* int64_t, a block height *)
  nPeriod : option Z;          (* Optional<uint32_t> *)
  nThreshold : option Z        (* Optional<uint32_t> *)
}.

Definition NO_TIMEOUT : Z := INT64_MAX.
Definition ALWAYS_ACTIVE : Z := -1.

(** Default initialisation of a [BIP9Deployment]: the two members with a
    default member initialiser get it; [bit], [nStartTime] and [nTimeout]
    have none and keep whatever the storage [g] held. *)
Definition BIP9Deployment_new (g : BIP9Deployment) : BIP9Deployment :=
  {| bit := bit g;
     nStartTime := nStartTime g;
     nTimeout := nTimeout g;
     nPeriod := None;
     nThreshold := None |}.

Definition opt_is_uint32 (o : option Z) : bool :=
  match o with
  | None => true
  | Some z => is_uint32 z
  end.

(** The values the members' types can hold. *)
Definition BIP9Deployment_wf (d : BIP9Deployment) : bool :=
  is_int (bit d) && is_int64 (nStartTime d) && is_int64 (nTimeout d)
  && opt_is_uint32 (nPeriod d) && opt_is_uint32 (nThreshold d).

(** ** [struct Params] *)

Record Params : Type := mkParams {
  hashGenesisBlock : uint256;
  nSubsidyHalvingInterval : Z;           (* int *)
  BIP16Exception : uint256;
  BIP34Height : Z;                       (* int *)
  BIP34Hash : uint256;
  BIP65Height : Z;                       (* int *)
  BIP66Height : Z;                       (* int *)
  CSVHeight : Z;                         (* int *)
  SegwitHeight : Z;                      (* int *)
  MinBIP9WarningHeight : Z;              (* int *)
  nRuleChangeActivationThreshold : Z;    (* uint32_t *)
  nMinerConfirmationWindow : Z;          (* uint32_t *)
  vDeployments : list BIP9Deployment;    (* [MAX_VERSION_BITS_DEPLOYMENTS] *)
  powLimit : uint256;
  fPowAllowMinDifficultyBlocks : bool;
  fPowNoRetargeting : bool;
  nPowTargetSpacing : Z;                 (* int64_t *)
  nPowTargetTimespan : Z;                (* int64_t *)
  nMinimumChainWork : uint256;
  defaultAssumeValid : uint256;
  signet_blocks : bool;
  signet_challenge : list Byte.byte;
  mandatory_coinbase_destination : CScript;
  genesis_subsidy : CAmount;
  subsidy_asset : CAsset;
  connect_genesis_outputs : bool;
  has_parent_chain : bool;
  parentChainPowLimit : uint256;
  pegin_min_depth : Z;                   (* uint32_t *)
  parent_chain_signblockscript : CScript;
  fedpegScript : CScript;
  pegged_asset : CAsset;
  parent_pegged_asset : CAsset;
  genesis_style : string;
  signblockscript : CScript;
  max_block_signature_size : Z;          (* uint32_t *)
  dynamic_epoch_length : Z;              (* uint32_t *)
  first_extension_space : list (list Byte.byte);
  total_valid_epochs : Z;                (* size_t *)
  elements_mode : bool
}.

(** The values the members' types can hold: every integer in the range of
    its type and the array of its declared length. *)
Definition Params_wf (c : Params) : bool :=
  is_uint256 (hashGenesisBlock c)
  && is_int (nSubsidyHalvingInterval c)
  && is_uint256 (BIP16Exception c)
  && is_int (BIP34Height c)
  && is_uint256 (BIP34Hash c)
  && is_int (BIP65Height c)
  && is_int (BIP66Height c)
  && is_int (CSVHeight c)
  && is_int (SegwitHeight c)
  && is_int (MinBIP9WarningHeight c)
  && is_uint32 (nRuleChangeActivationThreshold c)
  && is_uint32 (nMinerConfirmationWindow c)
  && Nat.eqb (List.length (vDeployments c)) MAX_VERSION_BITS_DEPLOYMENTS
  && forallb BIP9Deployment_wf (vDeployments c)
  && is_uint256 (powLimit c)
  && is_int64 (nPowTargetSpacing c)
  && is_int64 (nPowTargetTimespan c)
  && is_uint256 (nMinimumChainWork c)
  && is_uint256 (defaultAssumeValid c)
  && is_int64 (genesis_subsidy c)
  && is_uint256 (asset_id (subsidy_asset c))
  && is_uint256 (parentChainPowLimit c)
  && is_uint32 (pegin_min_depth c)
  && is_uint256 (asset_id (pegged_asset c))
  && is_uint256 (asset_id (parent_pegged_asset c))
  && is_uint32 (max_block_signature_size c)
  && is_uint32 (dynamic_epoch_length c)
  && is_size_t (total_valid_epochs c).

(** Default initialisation of a [Params] object ([Consensus::Params p;]).
    Members of class type are default constructed, members with a default
    member initialiser get it, and the scalar members without one keep
    whatever the storage [g] held. *)
Definition Params_new (g : Params) : Params :=
  {| hashGenesisBlock := uint256_new;
     nSubsidyHalvingInterval := nSubsidyHalvingInterval g;
     BIP16Exception := uint256_new;
     BIP34Height := BIP34Height g;
     BIP34Hash := uint256_new;
     BIP65Height := BIP65Height g;
     BIP66Height := BIP66Height g;
     CSVHeight := CSVHeight g;
     SegwitHeight := SegwitHeight g;
     MinBIP9WarningHeight := MinBIP9WarningHeight g;
     nRuleChangeActivationThreshold := nRuleChangeActivationThreshold g;
     nMinerConfirmationWindow := nMinerConfirmationWindow g;
     vDeployments := map BIP9Deployment_new (vDeployments g);
     powLimit := uint256_new;
     fPowAllowMinDifficultyBlocks := fPowAllowMinDifficultyBlocks g;
     fPowNoRetargeting := fPowNoRetargeting g;
     nPowTargetSpacing := nPowTargetSpacing g;
     nPowTargetTimespan := nPowTargetTimespan g;
     nMinimumChainWork := uint256_new;
     defaultAssumeValid := uint256_new;
     signet_blocks := false;
     signet_challenge := [];
     mandatory_coinbase_destination := CScript_new;
     genesis_subsidy := genesis_subsidy g;
     subsidy_asset := CAsset_new;
     connect_genesis_outputs := connect_genesis_outputs g;
     has_parent_chain := has_parent_chain g;
     parentChainPowLimit := uint256_new;
     pegin_min_depth := pegin_min_depth g;
     parent_chain_signblockscript := CScript_new;
     fedpegScript := CScript_new;
     pegged_asset := CAsset_new;
     parent_pegged_asset := CAsset_new;
     genesis_style := EmptyString;
     signblockscript := CScript_new;
     max_block_signature_size := max_block_signature_size g;
     dynamic_epoch_length := UINT32_MAX;
     first_extension_space := [];
     total_valid_epochs := 1;
     elements_mode := false |}.

(** ** Assignment to a member

    [Params] has no constructor and no member is [const]: a chain's
    parameters are built by default initialising the object and then
    assigning its members one by one.  Each assignment stores the value
    and nothing else. *)

Definition set_total_valid_epochs (v : Z) (c : Params) : Params :=
  let '(mkParams a01 a02 a03 a04 a05 a06 a07 a08 a09 a10 a11 a12 a13 a14
          a15 a16 a17 a18 a19 a20 a21 a22 a23 a24 a25 a26 a27 a28 a29 a30
          a31 a32 a33 a34 a35 a36 a37 a38 _ a40) := c in
  mkParams a01 a02 a03 a04 a05 a06 a07 a08 a09 a10 a11 a12 a13 a14
    a15 a16 a17 a18 a19 a20 a21 a22 a23 a24 a25 a26 a27 a28 a29 a30
    a31 a32 a33 a34 a35 a36 a37 a38 v a40.

Definition set_dynamic_epoch_length (v : Z) (c : Params) : Params :=
  let '(mkParams a01 a02 a03 a04 a05 a06 a07 a08 a09 a10 a11 a12 a13 a14
          a15 a16 a17 a18 a19 a20 a21 a22 a23 a24 a25 a26 a27 a28 a29 a30
          a31 a32 a33 a34 a35 a36 _ a38 a39 a40) := c in
  mkParams a01 a02 a03 a04 a05 a06 a07 a08 a09 a10 a11 a12 a13 a14
    a15 a16 a17 a18 a19 a20 a21 a22 a23 a24 a25 a26 a27 a28 a29 a30
    a31 a32 a33 a34 a35 a36 v a38 a39 a40.

Definition set_elements_mode (v : bool) (c : Params) : Params :=
  let '(mkParams a01 a02 a03 a04 a05 a06 a07 a08 a09 a10 a11 a12 a13 a14
          a15 a16 a17 a18 a19 a20 a21 a22 a23 a24 a25 a26 a27 a28 a29 a30
          a31 a32 a33 a34 a35 a36 a37 a38 a39 _) := c in
  mkParams a01 a02 a03 a04 a05 a06 a07 a08 a09 a10 a11 a12 a13 a14
    a15 a16 a17 a18 a19 a20 a21 a22 a23 a24 a25 a26 a27 a28 a29 a30
    a31 a32 a33 a34 a35 a36 a37 a38 a39 v.

Definition set_vDeployments (v : list BIP9Deployment) (c : Params) : Params :=
  let '(mkParams a01 a02 a03 a04 a05 a06 a07 a08 a09 a10 a11 a12 _ a14
          a15 a16 a17 a18 a19 a20 a21 a22 a23 a24 a25 a26 a27 a28 a29 a30
          a31 a32 a33 a34 a35 a36 a37 a38 a39 a40) := c in
  mkParams a01 a02 a03 a04 a05 a06 a07 a08 a09 a10 a11 a12 v a14
    a15 a16 a17 a18 a19 a20 a21 a22 a23 a24 a25 a26 a27 a28 a29 a30
    a31 a32 a33 a34 a35 a36 a37 a38 a39 a40.

Definition set_nPowTargetSpacing (v : Z) (c : Params) : Params :=
  let '(mkParams a01 a02 a03 a04 a05 a06 a07 a08 a09 a10 a11 a12 a13 a14
          a15 a16 _ a18 a19 a20 a21 a22 a23 a24 a25 a26 a27 a28 a29 a30
          a31 a32 a33 a34 a35 a36 a37 a38 a39 a40) := c in
  mkParams a01 a02 a03 a04 a05 a06 a07 a08 a09 a10 a11 a12 a13 a14
    a15 a16 v a18 a19 a20 a21 a22 a23 a24 a25 a26 a27 a28 a29 a30
    a31 a32 a33 a34 a35 a36 a37 a38 a39 a40.

Definition set_nPowTargetTimespan (v : Z) (c : Params) : Params :=
  let '(mkParams a01 a02 a03 a04 a05 a06 a07 a08 a09 a10 a11 a12 a13 a14
          a15 a16 a17 _ a19 a20 a21 a22 a23 a24 a25 a26 a27 a28 a29 a30
          a31 a32 a33 a34 a35 a36 a37 a38 a39 a40) := c in
  mkParams a01 a02 a03 a04 a05 a06 a07 a08 a09 a10 a11 a12 a13 a14
    a15 a16 a17 v a19 a20 a21 a22 a23 a24 a25 a26 a27 a28 a29 a30
    a31 a32 a33 a34 a35 a36 a37 a38 a39 a40.

Definition set_parent_chain_signblockscript (v : CScript) (c : Params)
  : Params :=
  let '(mkParams a01 a02 a03 a04 a05 a06 a07 a08 a09 a10 a11 a12 a13 a14
          a15 a16 a17 a18 a19 a20 a21 a22 a23 a24 a25 a26 a27 a28 a29 _
          a31 a32 a33 a34 a35 a36 a37 a38 a39 a40) := c in
  mkParams a01 a02 a03 a04 a05 a06 a07 a08 a09 a10 a11 a12 a13 a14
    a15 a16 a17 a18 a19 a20 a21 a22 a23 a24 a25 a26 a27 a28 a29 v
    a31 a32 a33 a34 a35 a36 a37 a38 a39 a40.

(** ** Calls of member functions

    A call runs on the object it is invoked on and gives back the value
    returned together with the object after the call; a call whose
    behaviour is undefined gives nothing. *)

Module Method.

Definition M (A : Type) : Type := Params -> option (A * Params).

Definition ret {A : Type} (a : A) : M A := fun c => Some (a, c).

Definition bind {A B : Type} (m : M A) (k : A -> M B) : M B :=
  fun c => match m c with
           | Some (a, c') => k a c'
           | None => None
           end.

(** Reading a data member of [*this]. *)
Definition member {A : Type} (f : Params -> A) : M A :=
  fun c => Some (f c, c).

(** The value of an expression that may be undefined. *)
Definition eval {A : Type} (o : option A) : M A :=
  fun c => match o with
           | Some a => Some (a, c)
           | None => None
           end.

(** The value a call returns, if it returns. *)
Definition result {A : Type} (m : M A) (c : Params) : option A :=
  option_map fst (m c).

(** [m] leaves the object it runs on as it found it. *)
Definition read_only {A : Type} (m : M A) : Prop :=
  forall c a c', m c = Some (a, c') -> c' = c.

End Method.

Notation "x <- m ;; k" := (Method.bind m (fun x => k))
  (at level 61, m at next level, right associativity).

(** [int64_t DifficultyAdjustmentInterval() const
      { return nPowTargetTimespan / nPowTargetSpacing; }] *)
Definition DifficultyAdjustmentInterval : Method.M Z :=
  timespan <- Method.member nPowTargetTimespan ;;
  spacing <- Method.member nPowTargetSpacing ;;
  Method.eval (int64_div timespan spacing).

(** [bool ParentChainHasPow() const
      { return parent_chain_signblockscript == CScript(); }] *)
Definition ParentChainHasPow : Method.M bool :=
  script <- Method.member parent_chain_signblockscript ;;
  Method.ret (CScript_eqb script CScript_new).

(** ** Deployment threshold states *)

Module VersionBits.

Inductive ThresholdState : Type :=
| DEFINED
| STARTED
| LOCKED_IN
| ACTIVE
| FAILED.

Definition ThresholdState_eqb (a b : ThresholdState) : bool :=
  match a, b with
  | DEFINED, DEFINED | STARTED, STARTED | LOCKED_IN, LOCKED_IN
  | ACTIVE, ACTIVE | FAILED, FAILED => true
  | _, _ => false
  end.

Section Calculator.

(** The chain's parameters, the signalling history
    ([signalBit height bitPosition]) and the deployment queried. *)
Variable params : Params.
Variable signalBit : Z -> Z -> bool.
Variable d : BIP9Deployment.

(** Modelled from the spec: the confirmation-window length of a
    deployment, its override or the chain-wide default (the calculator
    itself, versionbits.cpp, is not part of the header). *)
Definition window : Z :=
  match nPeriod d with
  | Some w => w
  | None => nMinerConfirmationWindow params
  end.

(** Modelled from the spec: the activation threshold of a deployment,
    its override or the chain-wide default. *)
Definition threshold : Z :=
  match nThreshold d with
  | Some t => t
  | None => nRuleChangeActivationThreshold params
  end.

(** Modelled from the spec: the number of blocks among the [n] blocks
    from height [from] on whose signalling bit for this deployment's
    position is set. *)
Fixpoint signal_count (from : Z) (n : nat) : Z :=
  match n with
  | O => 0
  | S n' =>
      (if signalBit from (bit d) then 1 else 0)
      + signal_count (from + 1) n'
  end.

(** Modelled from the spec: the timeout condition
    [b >= timeoutHeight] at a window boundary [b]. *)
Definition timed_out (b : Z) : bool := nTimeout d <=? b.

(** Modelled from the spec: the transition rule evaluated at a window
    boundary [b], given the state at the previous boundary. *)
Definition transition (prev : ThresholdState) (b : Z) : ThresholdState :=
  match prev with
  | DEFINED =>
      if timed_out b then FAILED
      else if nStartTime d <=? b then STARTED
      else DEFINED
  | STARTED =>
      if timed_out b then FAILED
      else if threshold <=? signal_count (b - window) (Z.to_nat window)
           then LOCKED_IN
           else STARTED
  | LOCKED_IN => ACTIVE
  | ACTIVE => ACTIVE
  | FAILED => FAILED
  end.

(** Modelled from the spec: the forward replay of [n] consecutive
    window boundaries, the first one at height [b], from state [s]. *)
Fixpoint replay (n : nat) (s : ThresholdState) (b : Z) : ThresholdState :=
  match n with
  | O => s
  | S n' => replay n' (transition s b) (b + window)
  end.

(** Modelled from the spec: the base case of the walk, [ACTIVE] for
    the always-active sentinel and [DEFINED] otherwise. *)
Definition base_state : ThresholdState :=
  if nStartTime d =? ALWAYS_ACTIVE then ACTIVE else DEFINED.

(** Modelled from the spec: [state(deployment, height)].  The sentinel
    start height skips the state machine; otherwise the state is the
    one computed at the boundary of the window that holds [h], by
    replaying every boundary from height 0 on.  There is no answer
    for a negative height, nor for a window of length zero. *)
Definition state (h : Z) : option ThresholdState :=
  if h <? 0 then None
  else if nStartTime d =? ALWAYS_ACTIVE then Some ACTIVE
  else if window <=? 0 then None
  else Some (replay (S (Z.to_nat (h / window))) base_state 0).

End Calculator.

End VersionBits.

(** ** Federation epochs *)

Module Federation.

(** Modelled from the spec: the epoch index of height [h],
    [h / epochLength] (the resolver is not part of the header).  The
    quotient does not exist for an epoch length of zero. *)
Definition epochIndex (c : Params) (h : Z) : option Z :=
  if dynamic_epoch_length c =? 0 then None
  else Some (h / dynamic_epoch_length c).

End Federation.

(** ** Sample objects *)

Module Samples.

Import VersionBits.

(** Zero-filled storage. *)
Definition zero_deployment : BIP9Deployment :=
  mkBIP9Deployment 0 0 0 None None.

Definition zero_storage : Params :=
  mkParams 0 0 0 0 0 0 0 0 0 0 0 0
    [zero_deployment; zero_deployment; zero_deployment]
    0 false false 0 0 0 0 false [] [] 0 (mkCAsset 0) false false 0 0
    [] [] (mkCAsset 0) (mkCAsset 0) EmptyString [] 0 0 [] 0 false.

(** A default initialised object in zero-filled storage. *)
Definition default_params : Params := Params_new zero_storage.

(** A chain with the ten-minute spacing and two-week timespan. *)
Definition pow_params : Params :=
  set_nPowTargetTimespan (14 * 24 * 60 * 60)
    (set_nPowTargetSpacing (10 * 60) default_params).

(** [INT64_MIN / -1]. *)
Definition overflow_params : Params :=
  set_nPowTargetTimespan INT64_MIN
    (set_nPowTargetSpacing (-1) default_params).

(** A federated parent chain: a one-byte sign-block script. *)
Definition signed_parent_params : Params :=
  set_parent_chain_signblockscript [Byte.x51] default_params.

(** A grace window of zero epochs. *)
Definition zero_window_params : Params :=
  set_total_valid_epochs 0 default_params.

Definition always_active_deployment : BIP9Deployment :=
  mkBIP9Deployment 28 ALWAYS_ACTIVE NO_TIMEOUT None None.

Definition no_timeout_deployment : BIP9Deployment :=
  mkBIP9Deployment 0 0 NO_TIMEOUT (Some 10) (Some 8).

Definition timeout_deployment : BIP9Deployment :=
  mkBIP9Deployment 0 0 30 (Some 10) (Some 8).

(** A deployment on bit 29, one past the last version bit. *)
Definition bit29_deployment : BIP9Deployment :=
  mkBIP9Deployment 29 0 NO_TIMEOUT None None.

Definition bit29_params : Params :=
  set_vDeployments
    [bit29_deployment; zero_deployment; zero_deployment] default_params.

(** Signalling histories: every block signals, no block signals, and
    the first seven blocks signal. *)
Definition all_signal : Z -> Z -> bool := fun _ _ => true.
Definition none_signal : Z -> Z -> bool := fun _ _ => false.
Definition seven_signal : Z -> Z -> bool := fun h _ => h <? 7.

End Samples.

(** ** The array of deployments *)

(** [vDeployments[pos]] read: the element at the enumerator's ordinal.
    Past the end of the array there is none. *)
Definition vDeployments_at (c : Params) (pos : DeploymentPos)
  : option BIP9Deployment :=
  nth_error (vDeployments c) (DeploymentPos_ordinal pos).

(** Storing into the element at index [i] of an array; storing past its
    end is undefined. *)
Fixpoint array_store {A : Type} (l : list A) (i : nat) (v : A)
  : option (list A) :=
  match l, i with
  | [], _ => None
  | _ :: l', O => Some (v :: l')
  | x :: l', S i' =>
      match array_store l' i' v with
      | Some r => Some (x :: r)
      | None => None
      end
  end.


(** * Properties *)

(** ** Integer ranges *)

Lemma is_int_spec (z : Z) : is_int z = true <-> INT_MIN <= z <= INT_MAX.
Proof. unfold is_int. rewrite andb_true_iff, !Z.leb_le. tauto. Qed.

Lemma is_int64_spec (z : Z) :
  is_int64 z = true <-> INT64_MIN <= z <= INT64_MAX.
Proof. unfold is_int64. rewrite andb_true_iff, !Z.leb_le. tauto. Qed.

Lemma int64_div_defined (a b : Z) :
  b <> 0 -> ~ (a = INT64_MIN /\ b = -1) ->
  int64_div a b = Some (Z.quot a b).
Proof.
  intros Hb Hov. unfold int64_div.
  destruct (Z.eqb_spec b 0) as [E | _]; [contradiction |].
  destruct (Z.eqb_spec a INT64_MIN) as [Ea | _]; [| reflexivity].
  destruct (Z.eqb_spec b (-1)) as [Eb | _]; [| reflexivity].
  exfalso. apply Hov. split; assumption.
Qed.

Lemma int64_div_by_zero (a : Z) : int64_div a 0 = None.
Proof. reflexivity. Qed.

Lemma int64_div_some (a b q : Z) :
  int64_div a b = Some q ->
  b <> 0 /\ ~ (a = INT64_MIN /\ b = -1) /\ q = Z.quot a b.
Proof.
  unfold int64_div.
  destruct (Z.eqb_spec b 0) as [E | N]; [discriminate |].
  destruct (Z.eqb_spec a INT64_MIN) as [Ea | Na];
    destruct (Z.eqb_spec b (-1)) as [Eb | Nb]; simpl;
    try discriminate; intros [= <-]; repeat split; auto; intros [? ?];
    contradiction.
Qed.

(** The quotient of two [int64_t] values fits the type again, the one
    overflowing pair apart. *)
Lemma int64_quot_range (a b : Z) :
  INT64_MIN <= a <= INT64_MAX -> b <> 0 ->
  ~ (a = INT64_MIN /\ b = -1) ->
  INT64_MIN <= Z.quot a b <= INT64_MAX.
Proof.
  unfold INT64_MIN, INT64_MAX. intros Ha Hb Hov.
  pose proof (Z.quot_rem' a b) as E.
  pose proof (Z.quot_abs a b Hb) as Habs.
  assert (Hq : Z.abs (Z.quot a b) <= Z.abs a).
  { rewrite <- Habs. apply Z.quot_le_upper_bound; [lia |].
    destruct (Z.abs_spec a), (Z.abs_spec b); nia. }
  destruct (Z.eq_dec a (- 2 ^ 63)) as [Ea | Na]; [| lia].
  destruct (Z.eq_dec b 1) as [-> | N1].
  - rewrite Z.quot_1_r. lia.
  - assert (Hb2 : 2 <= Z.abs b) by lia.
    assert (Hq2 : Z.abs (Z.quot a b) <= 2 ^ 62).
    { rewrite <- Habs. apply Z.quot_le_upper_bound; [lia |].
      subst a. change (Z.abs (- 2 ^ 63)) with (2 ^ 63). lia. }
    lia.
Qed.

(** ** Scripts *)

Lemma CScript_eqb_refl (a : CScript) : CScript_eqb a a = true.
Proof.
  induction a as [| x a IH]; simpl; [reflexivity |].
  rewrite IH, andb_true_r. apply Byte.byte_dec_lb. reflexivity.
Qed.

Lemma CScript_eqb_eq (a b : CScript) : CScript_eqb a b = true <-> a = b.
Proof.
  split.
  - revert b. induction a as [| x a IH]; intros [| y b] H; simpl in H;
      try discriminate; [reflexivity |].
    apply andb_true_iff in H. destruct H as [Hx Hr].
    apply Byte.byte_dec_bl in Hx. apply IH in Hr. congruence.
  - intros <-. apply CScript_eqb_refl.
Qed.

(** ** Calls leave the object alone *)

Section ReadOnly.

Import Method.

Lemma read_only_ret {A : Type} (a : A) : read_only (ret a).
Proof. intros c a' c' [= _ <-]. reflexivity. Qed.

Lemma read_only_member {A : Type} (f : Params -> A) : read_only (member f).
Proof. intros c a c' [= _ <-]. reflexivity. Qed.

Lemma read_only_eval {A : Type} (o : option A) : read_only (eval o).
Proof.
  intros c a c'. unfold eval. destruct o; [| discriminate].
  intros [= _ <-]. reflexivity.
Qed.

Lemma read_only_bind {A B : Type} (m : M A) (k : A -> M B) :
  read_only m -> (forall a, read_only (k a)) -> read_only (bind m k).
Proof.
  intros Hm Hk c b c'. unfold bind.
  destruct (m c) as [[a c1] |] eqn:E; [| discriminate].
  intros Hrun. apply Hm in E. apply Hk in Hrun. congruence.
Qed.

End ReadOnly.

Create HintDb read_only.
#[local] Hint Resolve read_only_ret read_only_member read_only_eval
  : read_only.

Lemma DifficultyAdjustmentInterval_read_only :
  Method.read_only DifficultyAdjustmentInterval.
Proof.
  unfold DifficultyAdjustmentInterval.
  apply read_only_bind; [auto with read_only | intros timespan].
  apply read_only_bind; [auto with read_only | intros spacing].
  auto with read_only.
Qed.

Lemma ParentChainHasPow_read_only : Method.read_only ParentChainHasPow.
Proof.
  unfold ParentChainHasPow.
  apply read_only_bind; [auto with read_only | intros script].
  auto with read_only.
Qed.

Lemma DifficultyAdjustmentInterval_run (c : Params) :
  DifficultyAdjustmentInterval c
  = match int64_div (nPowTargetTimespan c) (nPowTargetSpacing c) with
    | Some q => Some (q, c)
    | None => None
    end.
Proof. reflexivity. Qed.

Lemma ParentChainHasPow_run (c : Params) :
  ParentChainHasPow c
  = Some (CScript_eqb (parent_chain_signblockscript c) CScript_new, c).
Proof. reflexivity. Qed.

(** ** Well-formed objects stay well-formed under assignment *)

(** Take a [Params] object apart, with field names that do not shadow the
    projections. *)
Ltac destruct_params c :=
  destruct c as [a01 a02 a03 a04 a05 a06 a07 a08 a09 a10 a11 a12 a13 a14
                 a15 a16 a17 a18 a19 a20 a21 a22 a23 a24 a25 a26 a27 a28
                 a29 a30 a31 a32 a33 a34 a35 a36 a37 a38 a39 a40].

(** Reduce the projections of a constructed object, and nothing else. *)
Ltac params_fields :=
  cbv beta iota delta
    [hashGenesisBlock nSubsidyHalvingInterval BIP16Exception BIP34Height
     BIP34Hash BIP65Height BIP66Height CSVHeight SegwitHeight
     MinBIP9WarningHeight nRuleChangeActivationThreshold
     nMinerConfirmationWindow vDeployments powLimit
     fPowAllowMinDifficultyBlocks fPowNoRetargeting nPowTargetSpacing
     nPowTargetTimespan nMinimumChainWork defaultAssumeValid signet_blocks
     signet_challenge mandatory_coinbase_destination genesis_subsidy
     subsidy_asset connect_genesis_outputs has_parent_chain
     parentChainPowLimit pegin_min_depth parent_chain_signblockscript
     fedpegScript pegged_asset parent_pegged_asset genesis_style
     signblockscript max_block_signature_size dynamic_epoch_length
     first_extension_space total_valid_epochs elements_mode
     set_total_valid_epochs set_dynamic_epoch_length set_elements_mode
     set_vDeployments set_nPowTargetSpacing set_nPowTargetTimespan
     set_parent_chain_signblockscript] in *.

Ltac wf_split H :=
  unfold Params_wf in H; params_fields; rewrite !andb_true_iff in H.

Ltac wf_join :=
  unfold Params_wf; params_fields; rewrite !andb_true_iff; tauto.

Lemma Params_wf_set_total_valid_epochs (v : Z) (c : Params) :
  Params_wf c = true -> is_size_t v = true ->
  Params_wf (set_total_valid_epochs v c) = true.
Proof. intros H Hv. destruct_params c. wf_split H. wf_join. Qed.

Lemma Params_wf_set_dynamic_epoch_length (v : Z) (c : Params) :
  Params_wf c = true -> is_uint32 v = true ->
  Params_wf (set_dynamic_epoch_length v c) = true.
Proof. intros H Hv. destruct_params c. wf_split H. wf_join. Qed.

Lemma Params_wf_set_elements_mode (v : bool) (c : Params) :
  Params_wf c = true -> Params_wf (set_elements_mode v c) = true.
Proof. intros H. destruct_params c. wf_split H. wf_join. Qed.

Lemma Params_wf_set_vDeployments (v : list BIP9Deployment) (c : Params) :
  Params_wf c = true ->
  List.length v = MAX_VERSION_BITS_DEPLOYMENTS ->
  forallb BIP9Deployment_wf v = true ->
  Params_wf (set_vDeployments v c) = true.
Proof.
  intros H Hlen Hv. apply Nat.eqb_eq in Hlen.
  destruct_params c. wf_split H. wf_join.
Qed.

Lemma Params_wf_deployment (c : Params) (d : BIP9Deployment) :
  Params_wf c = true -> In d (vDeployments c) ->
  BIP9Deployment_wf d = true.
Proof.
  intros H Hin. destruct_params c. wf_split H.
  assert (Hall : forallb BIP9Deployment_wf a13 = true) by tauto.
  rewrite forallb_forall in Hall. apply Hall. exact Hin.
Qed.

Lemma BIP9Deployment_wf_bit (d : BIP9Deployment) :
  BIP9Deployment_wf d = true -> INT_MIN <= bit d <= INT_MAX.
Proof.
  unfold BIP9Deployment_wf. rewrite !andb_true_iff.
  intros [[[[Hb _] _] _] _]. apply is_int_spec. exact Hb.
Qed.

(** Field projections after an assignment. *)

Lemma vDeployments_set (v : list BIP9Deployment) (c : Params) :
  vDeployments (set_vDeployments v c) = v.
Proof. destruct_params c. reflexivity. Qed.

(** ** The threshold state machine *)

Section CalculatorFacts.

Import VersionBits.

Variable params : Params.
Variable signalBit : Z -> Z -> bool.
Variable d : BIP9Deployment.

Let step := transition params signalBit d.
Let run := replay params signalBit d.
Let W := window params d.

(** [ACTIVE] and [FAILED] are terminal. *)
Lemma replay_ACTIVE (n : nat) (b : Z) : run n ACTIVE b = ACTIVE.
Proof.
  subst run. revert b. induction n as [| n IH]; intros b; simpl;
    [reflexivity | apply IH].
Qed.

Lemma replay_FAILED (n : nat) (b : Z) : run n FAILED b = FAILED.
Proof.
  subst run. revert b. induction n as [| n IH]; intros b; simpl;
    [reflexivity | apply IH].
Qed.

Lemma timed_out_false (b : Z) : b < nTimeout d -> timed_out d b = false.
Proof. intros H. unfold timed_out. apply Z.leb_gt. exact H. Qed.

(** Before the timeout height a transition never enters [FAILED]. *)
Lemma transition_not_FAILED (s : ThresholdState) (b : Z) :
  s <> FAILED -> b < nTimeout d -> step s b <> FAILED.
Proof.
  intros Hs Hb. subst step. unfold transition.
  rewrite (timed_out_false b Hb).
  destruct s; try discriminate; try contradiction.
  - destruct (nStartTime d <=? b); discriminate.
  - destruct (threshold params d <=? _); discriminate.
Qed.

(** Nor does a replay whose last boundary lies before it. *)
Lemma replay_not_FAILED (n : nat) (s : ThresholdState) (b : Z) :
  0 < W -> s <> FAILED ->
  b + (Z.of_nat n - 1) * W < nTimeout d ->
  run n s b <> FAILED.
Proof.
  intros HW. subst run. revert s b.
  induction n as [| n IH]; intros s b Hs Hlast; simpl; [exact Hs |].
  apply IH.
  - apply transition_not_FAILED; [exact Hs |]. subst W. nia.
  - fold W. lia.
Qed.

End CalculatorFacts.

(** ** Default initialisation *)

Lemma BIP9Deployment_new_wf (g : BIP9Deployment) :
  BIP9Deployment_wf g = true -> BIP9Deployment_wf (BIP9Deployment_new g) = true.
Proof.
  unfold BIP9Deployment_wf. rewrite !andb_true_iff.
  cbn [BIP9Deployment_new bit nStartTime nTimeout nPeriod nThreshold
       opt_is_uint32].
  tauto.
Qed.

(** Default initialisation in well-formed storage gives a well-formed
    object. *)
Lemma Params_new_wf (g : Params) :
  Params_wf g = true -> Params_wf (Params_new g) = true.
Proof.
  intros H. destruct_params g. wf_split H.
  assert (Hall : forallb BIP9Deployment_wf a13 = true) by tauto.
  assert (Hlen : Nat.eqb (List.length a13) MAX_VERSION_BITS_DEPLOYMENTS
                 = true) by tauto.
  unfold Params_wf, Params_new. params_fields.
  rewrite length_map, Hlen.
  assert (Hmap : forallb BIP9Deployment_wf (map BIP9Deployment_new a13)
                 = true).
  { rewrite forallb_forall in *. intros d Hd.
    apply in_map_iff in Hd. destruct Hd as [d0 [<- Hin]].
    apply BIP9Deployment_new_wf, Hall, Hin. }
  rewrite Hmap.
  change (is_uint256 uint256_new) with true.
  change (is_uint256 (asset_id CAsset_new)) with true.
  change (is_uint32 UINT32_MAX) with true.
  change (is_size_t 1) with true.
  rewrite !andb_true_r, !andb_true_iff. tauto.
Qed.

(** With both overrides absent the chain-wide window and threshold are
    the ones in force. *)
Lemma new_deployment_chain_defaults (g : BIP9Deployment) (c : Params) :
  VersionBits.window c (BIP9Deployment_new g) = nMinerConfirmationWindow c
  /\ VersionBits.threshold c (BIP9Deployment_new g)
     = nRuleChangeActivationThreshold c.
Proof. split; reflexivity. Qed.

(** ** The state machine on the examples of the design *)

Section StateExamples.

Import VersionBits Samples.

(** Window 10, threshold 8, start height 0: ten signalling blocks in
    [0, 10) lock the deployment in at height 10 and activate it at 20;
    seven leave it [STARTED]. *)
Example state_locked_in_at_10 :
  state default_params all_signal no_timeout_deployment 10 = Some LOCKED_IN.
Proof. reflexivity. Qed.

Example state_active_at_20 :
  state default_params all_signal no_timeout_deployment 20 = Some ACTIVE.
Proof. reflexivity. Qed.

Example state_started_at_10 :
  state default_params seven_signal no_timeout_deployment 10 = Some STARTED.
Proof. reflexivity. Qed.

(** Timeout height 30 and no signal: [FAILED] at height 40. *)
Example state_failed_at_40 :
  state default_params none_signal timeout_deployment 40 = Some FAILED.
Proof. reflexivity. Qed.

End StateExamples.

(** * The claims *)

Section Claims.

Import VersionBits Samples.

(** ** C1: construction is not validated *)

(** C1, at a concrete object: a [Params] whose [total_valid_epochs] was
    assigned 0 after default initialisation is an ordinary value of the
    type, no error was raised on the way, and [ParentChainHasPow]
    answers on it. *)
Lemma zero_valid_epochs_observable :
  Params_wf zero_window_params = true
  /\ total_valid_epochs zero_window_params = 0
  /\ ParentChainHasPow zero_window_params = Some (true, zero_window_params).
Proof. repeat split; vm_compute; reflexivity. Qed.

(** C1, as the code has it: [Params] has no constructor and raises
    nothing.  Default initialisation gives [total_valid_epochs = 1] and
    [dynamic_epoch_length = 2^32 - 1], both nonzero; the assignments that
    follow store any value of the member's type.  So an object with any
    [total_valid_epochs] (0 too), any [dynamic_epoch_length] (0 too)
    whatever [elements_mode] is, and all three deployments equal (one
    bit, one state at every height) is a well-formed value, its members
    read back as assigned, and [ParentChainHasPow] answers on it. *)
Theorem Params_construction_unchecked
  (g c : Params) (w e : Z) (m : bool) (d : BIP9Deployment) :
  Params_wf c = true -> is_size_t w = true -> is_uint32 e = true ->
  BIP9Deployment_wf d = true ->
  (total_valid_epochs (Params_new g) = 1
   /\ dynamic_epoch_length (Params_new g) = 2 ^ 32 - 1)
  /\ (let c' :=
        set_vDeployments [d; d; d]
          (set_elements_mode m
             (set_dynamic_epoch_length e (set_total_valid_epochs w c))) in
      Params_wf c' = true
      /\ total_valid_epochs c' = w
      /\ dynamic_epoch_length c' = e
      /\ elements_mode c' = m
      /\ (forall d1 d2,
             In d1 (vDeployments c') -> In d2 (vDeployments c') ->
             bit d1 = bit d2
             /\ forall sig h, state c' sig d1 h = state c' sig d2 h)
      /\ exists r, ParentChainHasPow c' = Some (r, c')).
Proof.
  intros Hc Hw He Hd. split; [split; reflexivity |].
  cbv zeta. split; [| split; [| split; [| split; [| split]]]].
  - apply Params_wf_set_vDeployments; [| reflexivity |].
    + apply Params_wf_set_elements_mode,
        Params_wf_set_dynamic_epoch_length; [| exact He].
      apply Params_wf_set_total_valid_epochs; assumption.
    + cbn [forallb]. rewrite Hd. reflexivity.
  - destruct_params c. reflexivity.
  - destruct_params c. reflexivity.
  - destruct_params c. reflexivity.
  - rewrite vDeployments_set. intros d1 d2 H1 H2.
    assert (E1 : d1 = d) by (cbn [In] in H1; intuition congruence).
    assert (E2 : d2 = d) by (cbn [In] in H2; intuition congruence).
    subst d1 d2. split; reflexivity.
  - rewrite ParentChainHasPow_run. eexists. reflexivity.
Qed.

Lemma Params_construction_unchecked_witness :
  Params_wf default_params = true /\ is_size_t 0 = true
  /\ is_uint32 0 = true
  /\ BIP9Deployment_wf always_active_deployment = true
  /\ let c' :=
       set_vDeployments
         [always_active_deployment; always_active_deployment;
          always_active_deployment]
         (set_elements_mode true
            (set_dynamic_epoch_length 0
               (set_total_valid_epochs 0 default_params))) in
     Params_wf c' = true /\ total_valid_epochs c' = 0
     /\ dynamic_epoch_length c' = 0 /\ elements_mode c' = true.
Proof.
  assert (Hc : Params_wf default_params = true) by (vm_compute; reflexivity).
  assert (Hw : is_size_t 0 = true) by reflexivity.
  assert (He : is_uint32 0 = true) by reflexivity.
  assert (Hd : BIP9Deployment_wf always_active_deployment = true)
    by (vm_compute; reflexivity).
  destruct (Params_construction_unchecked zero_storage default_params
              0 0 true always_active_deployment Hc Hw He Hd)
    as [_ [Hwf [Hw' [He' [Hm' _]]]]].
  exact (conj Hc (conj Hw (conj He (conj Hd
           (conj Hwf (conj Hw' (conj He' Hm'))))))).
Defined.

(** ** C2: the always-active sentinel *)

(** C2: ALWAYS_ACTIVE is -1, below every block height [h >= 0], and a
    deployment whose start height is that sentinel is [ACTIVE] at every
    such height, whatever the chain parameters and the signalling
    history: the state machine is not run, and running it from the
    sentinel's base case would not leave [ACTIVE] either. *)
Theorem always_active_state
  (params : Params) (signalBit : Z -> Z -> bool) (d : BIP9Deployment)
  (h : Z) :
  nStartTime d = ALWAYS_ACTIVE -> 0 <= h ->
  ALWAYS_ACTIVE = -1 /\ ALWAYS_ACTIVE < h
  /\ state params signalBit d h = Some ACTIVE
  /\ forall n b, replay params signalBit d n (base_state d) b = ACTIVE.
Proof.
  intros Hstart Hh. split; [reflexivity |].
  split; [unfold ALWAYS_ACTIVE; lia |]. split.
  - unfold state.
    destruct (Z.ltb_spec h 0) as [Hneg | _]; [lia |].
    rewrite Hstart, Z.eqb_refl. reflexivity.
  - intros n b. unfold base_state. rewrite Hstart, Z.eqb_refl.
    apply replay_ACTIVE.
Qed.

Lemma always_active_state_witness :
  nStartTime always_active_deployment = ALWAYS_ACTIVE /\ 0 <= 5
  /\ state default_params none_signal always_active_deployment 5
     = Some ACTIVE.
Proof.
  assert (Hs : nStartTime always_active_deployment = ALWAYS_ACTIVE)
    by reflexivity.
  assert (Hh : 0 <= 5) by lia.
  split; [exact Hs | split; [exact Hh |]].
  apply (always_active_state default_params none_signal
           always_active_deployment 5 Hs Hh).
Defined.

(** ** C3: the no-timeout sentinel *)

(** C3: NO_TIMEOUT is 2^63 - 1.  For a deployment whose timeout height
    is that sentinel, the timeout condition is false at every boundary
    [b < 2^63 - 1], neither [DEFINED] nor [STARTED] moves to [FAILED]
    there, and the state at any height below 2^63 - 1 is never
    [FAILED]. *)
Theorem NO_TIMEOUT_never_fails
  (params : Params) (signalBit : Z -> Z -> bool) (d : BIP9Deployment) :
  nTimeout d = NO_TIMEOUT ->
  NO_TIMEOUT = 2 ^ 63 - 1
  /\ (forall b, b < 2 ^ 63 - 1 ->
        timed_out d b = false
        /\ transition params signalBit d DEFINED b <> FAILED
        /\ transition params signalBit d STARTED b <> FAILED)
  /\ (forall h, h < 2 ^ 63 - 1 ->
        state params signalBit d h <> Some FAILED).
Proof.
  intros Ht. split; [reflexivity |]. split.
  - intros b Hb.
    assert (Hlt : b < nTimeout d) by (rewrite Ht; exact Hb).
    split; [apply timed_out_false; exact Hlt |].
    split; apply transition_not_FAILED; try exact Hlt; discriminate.
  - intros h Hh. unfold state.
    destruct (Z.ltb_spec h 0) as [_ | Hpos]; [discriminate |].
    destruct (Z.eqb_spec (nStartTime d) ALWAYS_ACTIVE) as [_ | _];
      [discriminate |].
    destruct (Z.leb_spec (window params d) 0) as [_ | HW];
      [discriminate |].
    intros E. injection E as E. revert E.
    apply (replay_not_FAILED params signalBit d
             (S (Z.to_nat (h / window params d))) (base_state d) 0).
    + exact HW.
    + unfold base_state.
      destruct (nStartTime d =? ALWAYS_ACTIVE); discriminate.
    + rewrite Ht, Nat2Z.inj_succ, Z2Nat.id by (apply Z.div_pos; lia).
      pose proof (Z.mul_div_le h (window params d) HW).
      change NO_TIMEOUT with (2 ^ 63 - 1). lia.
Qed.

Lemma NO_TIMEOUT_never_fails_witness :
  nTimeout no_timeout_deployment = NO_TIMEOUT
  /\ timed_out no_timeout_deployment 2016 = false
  /\ state default_params none_signal no_timeout_deployment 400
     <> Some FAILED.
Proof.
  assert (Ht : nTimeout no_timeout_deployment = NO_TIMEOUT) by reflexivity.
  destruct (NO_TIMEOUT_never_fails default_params none_signal
              no_timeout_deployment Ht) as [_ [Hb Hh]].
  assert (B : 2016 < 2 ^ 63 - 1) by lia.
  assert (H : 400 < 2 ^ 63 - 1) by lia.
  exact (conj Ht (conj (proj1 (Hb 2016 B)) (Hh 400 H))).
Defined.

(** ** C4: the range of a bit position *)

(** C4, at a concrete object: a [Params] whose first deployment signals
    on bit 29 is a well-formed value of the type. *)
Lemma bit_29_representable :
  Params_wf bit29_params = true
  /\ In bit29_deployment (vDeployments bit29_params)
  /\ ~ (0 <= bit bit29_deployment <= 28).
Proof.
  split; [vm_compute; reflexivity |]. split.
  - left. reflexivity.
  - cbn [bit bit29_deployment]. lia.
Qed.

(** C4, as the code has it: [bit] is a plain [int].  The bit position of
    every deployment held in a [Params] lies in the range of [int], and
    every value of that range is the bit position of a deployment of some
    well-formed [Params]; the struct does not narrow it to 0..28. *)
Theorem deployment_bit_range :
  (forall c d,
      Params_wf c = true -> In d (vDeployments c) ->
      - 2 ^ 31 <= bit d <= 2 ^ 31 - 1)
  /\ (forall z,
         - 2 ^ 31 <= z <= 2 ^ 31 - 1 ->
         exists c d,
           Params_wf c = true /\ In d (vDeployments c) /\ bit d = z).
Proof.
  split.
  - intros c d Hc Hin.
    apply BIP9Deployment_wf_bit, (Params_wf_deployment c d Hc Hin).
  - intros z Hz.
    set (d := mkBIP9Deployment z 0 NO_TIMEOUT None None).
    exists (set_vDeployments [d; zero_deployment; zero_deployment]
              default_params), d.
    split; [| split].
    + apply Params_wf_set_vDeployments.
      * vm_compute. reflexivity.
      * reflexivity.
      * cbn [forallb]. rewrite andb_true_iff. split; [| reflexivity].
        unfold BIP9Deployment_wf. cbn [bit nStartTime nTimeout nPeriod
                                        nThreshold d opt_is_uint32].
        rewrite !andb_true_iff. repeat split; try reflexivity.
        apply is_int_spec. exact Hz.
    + rewrite vDeployments_set. left. reflexivity.
    + reflexivity.
Qed.

Lemma deployment_bit_range_witness :
  Params_wf bit29_params = true
  /\ In bit29_deployment (vDeployments bit29_params)
  /\ - 2 ^ 31 <= bit bit29_deployment <= 2 ^ 31 - 1
  /\ exists c d, Params_wf c = true /\ In d (vDeployments c) /\ bit d = 29.
Proof.
  assert (Hc : Params_wf bit29_params = true) by (vm_compute; reflexivity).
  assert (Hin : In bit29_deployment (vDeployments bit29_params))
    by (left; reflexivity).
  assert (Hz : - 2 ^ 31 <= 29 <= 2 ^ 31 - 1) by lia.
  exact (conj Hc (conj Hin
           (conj (proj1 deployment_bit_range bit29_params
                    bit29_deployment Hc Hin)
                 (proj2 deployment_bit_range 29 Hz)))).
Defined.

(** ** C5: the overrides of a new deployment *)

(** C5: in a newly constructed [BIP9Deployment] the window-length
    override [nPeriod] and the threshold override [nThreshold] are both
    the absent case of an optional, which no numeric value equals; the
    same holds of every deployment of a default initialised [Params]. *)
Theorem new_deployment_overrides_absent (g : BIP9Deployment) (p : Params) :
  nPeriod (BIP9Deployment_new g) = None
  /\ nThreshold (BIP9Deployment_new g) = None
  /\ (forall v : Z, nPeriod (BIP9Deployment_new g) <> Some v)
  /\ (forall v : Z, nThreshold (BIP9Deployment_new g) <> Some v)
  /\ forallb (fun d => match nPeriod d, nThreshold d with
                       | None, None => true
                       | _, _ => false
                       end)
       (vDeployments (Params_new p)) = true.
Proof.
  split; [reflexivity |]. split; [reflexivity |].
  split; [intros v; discriminate |]. split; [intros v; discriminate |].
  cbn [vDeployments Params_new]. apply forallb_forall.
  intros d Hd. apply in_map_iff in Hd. destruct Hd as [d0 [<- _]].
  reflexivity.
Qed.

(** ** C6: the default epoch length *)

(** C6: a default initialised [Params] has [dynamic_epoch_length] equal
    to 2^32 - 1, which is not zero, and the epoch index of every height
    [0 <= h < 2^32 - 1] is 0: all those heights, among them every
    non-negative [int] (the type of the heights of the header), share one
    epoch. *)
Theorem default_epoch_length_single_epoch (g : Params) :
  dynamic_epoch_length (Params_new g) = 2 ^ 32 - 1
  /\ dynamic_epoch_length (Params_new g) <> 0
  /\ (forall h, 0 <= h < 2 ^ 32 - 1 ->
        Federation.epochIndex (Params_new g) h = Some 0)
  /\ (forall h, 0 <= h -> is_int h = true ->
        Federation.epochIndex (Params_new g) h = Some 0)
  /\ (forall h1 h2, 0 <= h1 < 2 ^ 32 - 1 -> 0 <= h2 < 2 ^ 32 - 1 ->
        Federation.epochIndex (Params_new g) h1
        = Federation.epochIndex (Params_new g) h2).
Proof.
  assert (E : dynamic_epoch_length (Params_new g) = 2 ^ 32 - 1)
    by reflexivity.
  assert (Hidx : forall h, 0 <= h < 2 ^ 32 - 1 ->
                   Federation.epochIndex (Params_new g) h = Some 0).
  { intros h Hh. unfold Federation.epochIndex. rewrite E.
    destruct (Z.eqb_spec (2 ^ 32 - 1) 0) as [Hz | _]; [lia |].
    rewrite Z.div_small by exact Hh. reflexivity. }
  split; [exact E |]. split; [rewrite E; lia |]. split; [exact Hidx |].
  split.
  { intros h Hh Hint. apply is_int_spec in Hint. apply Hidx.
    unfold INT_MAX in Hint. lia. }
  intros h1 h2 H1 H2. rewrite (Hidx h1 H1), (Hidx h2 H2). reflexivity.
Qed.

Lemma default_epoch_length_single_epoch_witness :
  0 <= 4294967294 < 2 ^ 32 - 1
  /\ Federation.epochIndex default_params 4294967294 = Some 0.
Proof.
  assert (Hh : 0 <= 4294967294 < 2 ^ 32 - 1) by lia.
  destruct (default_epoch_length_single_epoch zero_storage)
    as [_ [_ [Hidx _]]].
  exact (conj Hh (Hidx 4294967294 Hh)).
Defined.

(** ** C7: the member functions do not write *)

(** C7, at a concrete object: on a well-formed [Params] whose
    [nPowTargetSpacing] is 0, [DifficultyAdjustmentInterval] divides by
    zero and yields no result. *)
Lemma DifficultyAdjustmentInterval_no_result :
  Params_wf default_params = true
  /\ nPowTargetSpacing default_params = 0
  /\ ~ (exists r c', DifficultyAdjustmentInterval default_params
                     = Some (r, c')).
Proof.
  split; [vm_compute; reflexivity |]. split; [reflexivity |].
  intros [r [c' H]]. vm_compute in H. discriminate H.
Qed.

(** C7, as the code has it: [ParentChainHasPow] yields a result on every
    object and leaves every field as it was; whenever
    [DifficultyAdjustmentInterval] yields a result the object is
    unchanged as well, and it yields one exactly when [nPowTargetSpacing]
    is not 0 and the division is not [INT64_MIN / -1]. *)
Theorem member_functions_read_only (c : Params) :
  (exists b, ParentChainHasPow c = Some (b, c))
  /\ (forall b c', ParentChainHasPow c = Some (b, c') -> c' = c)
  /\ (forall r c', DifficultyAdjustmentInterval c = Some (r, c') -> c' = c)
  /\ ((exists r, DifficultyAdjustmentInterval c = Some (r, c))
      <-> nPowTargetSpacing c <> 0
          /\ ~ (nPowTargetTimespan c = - 2 ^ 63
                /\ nPowTargetSpacing c = -1)).
Proof.
  split; [| split; [| split]].
  - rewrite ParentChainHasPow_run. eexists. reflexivity.
  - intros b c'. apply ParentChainHasPow_read_only.
  - intros r c'. apply DifficultyAdjustmentInterval_read_only.
  - rewrite DifficultyAdjustmentInterval_run. split.
    + intros [r Hr].
      destruct (int64_div (nPowTargetTimespan c) (nPowTargetSpacing c))
        as [q |] eqn:E; [| discriminate Hr].
      apply int64_div_some in E. tauto.
    + intros [Hsp Hov]. rewrite (int64_div_defined _ _ Hsp Hov).
      eexists. reflexivity.
Qed.

Lemma member_functions_read_only_witness :
  nPowTargetSpacing pow_params <> 0
  /\ ~ (nPowTargetTimespan pow_params = - 2 ^ 63
        /\ nPowTargetSpacing pow_params = -1)
  /\ exists r, DifficultyAdjustmentInterval pow_params = Some (r, pow_params).
Proof.
  assert (Hsp : nPowTargetSpacing pow_params <> 0)
    by (vm_compute; discriminate).
  assert (Hov : ~ (nPowTargetTimespan pow_params = - 2 ^ 63
                   /\ nPowTargetSpacing pow_params = -1))
    by (intros [_ H]; vm_compute in H; discriminate H).
  destruct (member_functions_read_only pow_params) as [_ [_ [_ Hres]]].
  exact (conj Hsp (conj Hov (proj2 Hres (conj Hsp Hov)))).
Defined.

(** ** C8: the parent chain has proof of work *)

(** C8: [ParentChainHasPow] returns on every object, and the value it
    returns is [true] if and only if [parent_chain_signblockscript] is the
    empty script. *)
Theorem ParentChainHasPow_iff_empty (c : Params) :
  exists b,
    ParentChainHasPow c = Some (b, c)
    /\ (b = true <-> parent_chain_signblockscript c = CScript_new).
Proof.
  exists (CScript_eqb (parent_chain_signblockscript c) CScript_new).
  split; [apply ParentChainHasPow_run | apply CScript_eqb_eq].
Qed.

(** ** C9: the difficulty adjustment interval *)

(** C9, at a concrete object: with [nPowTargetTimespan = INT64_MIN] and
    [nPowTargetSpacing = -1] the divisor is not 0, yet the quotient 2^63
    is not an [int64_t] and the call yields no result. *)
Lemma DifficultyAdjustmentInterval_overflow :
  Params_wf overflow_params = true
  /\ nPowTargetSpacing overflow_params <> 0
  /\ Method.result DifficultyAdjustmentInterval overflow_params
     <> Some (Z.quot (nPowTargetTimespan overflow_params)
                     (nPowTargetSpacing overflow_params)).
Proof.
  split; [vm_compute; reflexivity |].
  split; vm_compute; discriminate.
Qed.

(** C9, as the code has it: when [nPowTargetSpacing] is not 0 and the
    division is not [INT64_MIN / -1], [DifficultyAdjustmentInterval]
    returns the quotient [nPowTargetTimespan / nPowTargetSpacing]
    truncated towards zero, itself an [int64_t], and the division by zero
    is not reached; when [nPowTargetSpacing] is 0 it has no result. *)
Theorem DifficultyAdjustmentInterval_quotient (c : Params) :
  Params_wf c = true ->
  (nPowTargetSpacing c <> 0 ->
   ~ (nPowTargetTimespan c = - 2 ^ 63 /\ nPowTargetSpacing c = -1) ->
   DifficultyAdjustmentInterval c
   = Some (Z.quot (nPowTargetTimespan c) (nPowTargetSpacing c), c)
   /\ - 2 ^ 63 <= Z.quot (nPowTargetTimespan c) (nPowTargetSpacing c)
      <= 2 ^ 63 - 1)
  /\ (nPowTargetSpacing c = 0 -> DifficultyAdjustmentInterval c = None).
Proof.
  intros Hc. split.
  - intros Hsp Hov. split.
    + rewrite DifficultyAdjustmentInterval_run.
      rewrite (int64_div_defined _ _ Hsp Hov). reflexivity.
    + apply int64_quot_range; try assumption.
      apply is_int64_spec. destruct_params c. wf_split Hc. tauto.
  - intros Hz. rewrite DifficultyAdjustmentInterval_run, Hz.
    rewrite int64_div_by_zero. reflexivity.
Qed.

Lemma DifficultyAdjustmentInterval_quotient_witness :
  Params_wf pow_params = true
  /\ nPowTargetSpacing pow_params <> 0
  /\ DifficultyAdjustmentInterval pow_params = Some (2016, pow_params)
  /\ nPowTargetSpacing default_params = 0
  /\ DifficultyAdjustmentInterval default_params = None.
Proof.
  assert (Hc : Params_wf pow_params = true) by (vm_compute; reflexivity).
  assert (Hd : Params_wf default_params = true) by (vm_compute; reflexivity).
  assert (Hsp : nPowTargetSpacing pow_params <> 0)
    by (vm_compute; discriminate).
  assert (Hov : ~ (nPowTargetTimespan pow_params = - 2 ^ 63
                   /\ nPowTargetSpacing pow_params = -1))
    by (intros [_ H]; vm_compute in H; discriminate H).
  assert (Hz : nPowTargetSpacing default_params = 0) by reflexivity.
  exact (conj Hc (conj Hsp
           (conj (proj1 (proj1 (DifficultyAdjustmentInterval_quotient
                                  pow_params Hc) Hsp Hov))
                 (conj Hz
                    (proj2 (DifficultyAdjustmentInterval_quotient
                              default_params Hd) Hz))))).
Defined.

(** ** C10: the defaults of the federation members *)

(** C10: a default constructed [Params] has [total_valid_epochs] equal to
    1, which meets the minimum of one epoch, and [elements_mode] equal to
    [false]. *)
Theorem default_params_legacy (g : Params) :
  total_valid_epochs (Params_new g) = 1
  /\ elements_mode (Params_new g) = false
  /\ 1 <= total_valid_epochs (Params_new g).
Proof.
  split; [reflexivity |]. split; [reflexivity |].
  cbn [total_valid_epochs Params_new]. lia.
Qed.

End Claims.

(** * Further properties of the header *)

Section Interval.

(** ** The value of [DifficultyAdjustmentInterval] *)

(** Whenever the call returns, it returned the truncated quotient of the
    two members, from a division that was defined. *)
Lemma DifficultyAdjustmentInterval_inv (c c' : Params) (q : Z) :
  DifficultyAdjustmentInterval c = Some (q, c') ->
  nPowTargetSpacing c <> 0
  /\ q = Z.quot (nPowTargetTimespan c) (nPowTargetSpacing c).
Proof.
  rewrite DifficultyAdjustmentInterval_run.
  destruct (int64_div (nPowTargetTimespan c) (nPowTargetSpacing c))
    as [q0 |] eqn:E; [| discriminate].
  intros [= <- _]. apply int64_div_some in E. tauto.
Qed.

(** X1: for a non-negative timespan and a positive spacing the call
    returns the number [q] of whole spacings that fit the timespan:
    [0 <= q <= timespan] and [q * spacing <= timespan < (q+1) * spacing]. *)
Theorem DifficultyAdjustmentInterval_whole_spacings (c : Params) :
  0 <= nPowTargetTimespan c -> 0 < nPowTargetSpacing c ->
  exists q,
    DifficultyAdjustmentInterval c = Some (q, c)
    /\ 0 <= q <= nPowTargetTimespan c
    /\ q * nPowTargetSpacing c <= nPowTargetTimespan c
       < (q + 1) * nPowTargetSpacing c.
Proof.
  intros Hts Hsp.
  exists (Z.quot (nPowTargetTimespan c) (nPowTargetSpacing c)).
  split.
  - rewrite DifficultyAdjustmentInterval_run, int64_div_defined;
      [reflexivity | lia | lia].
  - rewrite Z.quot_div_nonneg by lia.
    pose proof (Z.div_mod (nPowTargetTimespan c) (nPowTargetSpacing c)
                  ltac:(lia)) as E.
    pose proof (Z.mod_pos_bound (nPowTargetTimespan c)
                  (nPowTargetSpacing c) Hsp) as Hm.
    pose proof (Z.div_pos (nPowTargetTimespan c) (nPowTargetSpacing c)
                  Hts Hsp) as Hq.
    split; [split; [exact Hq |] |]; nia.
Qed.

Lemma DifficultyAdjustmentInterval_whole_spacings_witness :
  0 <= nPowTargetTimespan Samples.pow_params
  /\ 0 < nPowTargetSpacing Samples.pow_params
  /\ exists q,
       DifficultyAdjustmentInterval Samples.pow_params
       = Some (q, Samples.pow_params)
       /\ 0 <= q <= nPowTargetTimespan Samples.pow_params
       /\ q * nPowTargetSpacing Samples.pow_params
          <= nPowTargetTimespan Samples.pow_params
          < (q + 1) * nPowTargetSpacing Samples.pow_params.
Proof.
  assert (Hts : 0 <= nPowTargetTimespan Samples.pow_params)
    by (vm_compute; discriminate).
  assert (Hsp : 0 < nPowTargetSpacing Samples.pow_params)
    by (vm_compute; reflexivity).
  exact (conj Hts (conj Hsp
           (DifficultyAdjustmentInterval_whole_spacings
              Samples.pow_params Hts Hsp))).
Defined.

(** X2: whatever the signs of the two members, a returned interval [q]
    is the quotient rounded towards zero: what is left of the timespan,
    [timespan - q * spacing], is smaller in magnitude than the spacing
    and never of the sign opposite to the timespan's. *)
Theorem DifficultyAdjustmentInterval_rounds_to_zero
  (c c' : Params) (q : Z) :
  DifficultyAdjustmentInterval c = Some (q, c') ->
  let r := nPowTargetTimespan c - q * nPowTargetSpacing c in
  Z.abs r < Z.abs (nPowTargetSpacing c)
  /\ 0 <= r * nPowTargetTimespan c
  /\ Z.abs q <= Z.abs (nPowTargetTimespan c).
Proof.
  intros H. apply DifficultyAdjustmentInterval_inv in H.
  destruct H as [Hsp ->]. cbv zeta.
  set (a := nPowTargetTimespan c) in *.
  set (b := nPowTargetSpacing c) in *.
  assert (Er : a - Z.quot a b * b = Z.rem a b).
  { pose proof (Z.quot_rem' a b). lia. }
  rewrite Er. split; [| split].
  - apply Z.rem_bound_abs. exact Hsp.
  - apply Z.rem_sign_mul. exact Hsp.
  - pose proof (Z.quot_abs a b Hsp) as Habs. rewrite <- Habs.
    apply Z.quot_le_upper_bound; [lia |].
    destruct (Z.abs_spec a), (Z.abs_spec b); nia.
Qed.

Lemma DifficultyAdjustmentInterval_rounds_to_zero_witness :
  DifficultyAdjustmentInterval
    (set_nPowTargetTimespan (-7) (set_nPowTargetSpacing 2 Samples.default_params))
  = Some (-3, set_nPowTargetTimespan (-7)
                (set_nPowTargetSpacing 2 Samples.default_params))
  /\ Z.abs (-7 - -3 * 2) < Z.abs 2.
Proof.
  assert (H : DifficultyAdjustmentInterval
                (set_nPowTargetTimespan (-7)
                   (set_nPowTargetSpacing 2 Samples.default_params))
              = Some (-3, set_nPowTargetTimespan (-7)
                            (set_nPowTargetSpacing 2 Samples.default_params)))
    by (vm_compute; reflexivity).
  exact (conj H (proj1 (DifficultyAdjustmentInterval_rounds_to_zero
                          _ _ _ H))).
Defined.

(** X3: a returned interval is 0 exactly when the timespan is smaller in
    magnitude than the spacing. *)
Theorem DifficultyAdjustmentInterval_zero_iff (c c' : Params) (q : Z) :
  DifficultyAdjustmentInterval c = Some (q, c') ->
  (q = 0 <-> Z.abs (nPowTargetTimespan c) < Z.abs (nPowTargetSpacing c)).
Proof.
  intros H. apply DifficultyAdjustmentInterval_inv in H.
  destruct H as [Hsp ->]. apply Z.quot_small_iff. exact Hsp.
Qed.

Lemma DifficultyAdjustmentInterval_zero_iff_witness :
  DifficultyAdjustmentInterval
    (set_nPowTargetTimespan 599 (set_nPowTargetSpacing 600 Samples.default_params))
  = Some (0, set_nPowTargetTimespan 599
               (set_nPowTargetSpacing 600 Samples.default_params))
  /\ (0 = 0 <-> Z.abs 599 < Z.abs 600).
Proof.
  assert (H : DifficultyAdjustmentInterval
                (set_nPowTargetTimespan 599
                   (set_nPowTargetSpacing 600 Samples.default_params))
              = Some (0, set_nPowTargetTimespan 599
                           (set_nPowTargetSpacing 600 Samples.default_params)))
    by (vm_compute; reflexivity).
  exact (conj H (DifficultyAdjustmentInterval_zero_iff _ _ _ H)).
Defined.

(** X4: when the timespan is [k] spacings exactly, with [k] an
    [int64_t], the call returns [k]; the interval times the spacing gives
    the timespan back. *)
Theorem DifficultyAdjustmentInterval_exact (c : Params) (k : Z) :
  nPowTargetSpacing c <> 0 ->
  nPowTargetTimespan c = k * nPowTargetSpacing c ->
  - 2 ^ 63 <= k <= 2 ^ 63 - 1 ->
  DifficultyAdjustmentInterval c = Some (k, c).
Proof.
  intros Hsp Hts Hk.
  rewrite DifficultyAdjustmentInterval_run, int64_div_defined.
  - rewrite Hts, Z.quot_mul by exact Hsp. reflexivity.
  - exact Hsp.
  - intros [Hmin Hm1]. rewrite Hm1 in Hts. unfold INT64_MIN in Hmin. lia.
Qed.

Lemma DifficultyAdjustmentInterval_exact_witness :
  nPowTargetSpacing Samples.pow_params <> 0
  /\ nPowTargetTimespan Samples.pow_params
     = 2016 * nPowTargetSpacing Samples.pow_params
  /\ - 2 ^ 63 <= 2016 <= 2 ^ 63 - 1
  /\ DifficultyAdjustmentInterval Samples.pow_params
     = Some (2016, Samples.pow_params).
Proof.
  assert (Hsp : nPowTargetSpacing Samples.pow_params <> 0)
    by (vm_compute; discriminate).
  assert (Hts : nPowTargetTimespan Samples.pow_params
                = 2016 * nPowTargetSpacing Samples.pow_params)
    by (vm_compute; reflexivity).
  assert (Hk : - 2 ^ 63 <= 2016 <= 2 ^ 63 - 1) by lia.
  exact (conj Hsp (conj Hts (conj Hk
           (DifficultyAdjustmentInterval_exact Samples.pow_params 2016
              Hsp Hts Hk)))).
Defined.

(** X5: with one positive spacing, a chain with the longer (non-negative)
    timespan never has the shorter interval; with one non-negative
    timespan, a chain with the longer (positive) spacing never has the
    longer interval. *)
Theorem DifficultyAdjustmentInterval_monotone
  (c1 c2 c1' c2' : Params) (q1 q2 : Z) :
  DifficultyAdjustmentInterval c1 = Some (q1, c1') ->
  DifficultyAdjustmentInterval c2 = Some (q2, c2') ->
  (nPowTargetSpacing c1 = nPowTargetSpacing c2 ->
   0 < nPowTargetSpacing c1 ->
   0 <= nPowTargetTimespan c1 <= nPowTargetTimespan c2 -> q1 <= q2)
  /\ (nPowTargetTimespan c1 = nPowTargetTimespan c2 ->
      0 <= nPowTargetTimespan c1 ->
      0 < nPowTargetSpacing c1 <= nPowTargetSpacing c2 -> q2 <= q1).
Proof.
  intros H1 H2.
  apply DifficultyAdjustmentInterval_inv in H1, H2.
  destruct H1 as [_ ->], H2 as [_ ->]. split.
  - intros Esp Hsp Hts. rewrite <- Esp.
    rewrite !Z.quot_div_nonneg by lia.
    apply Z.div_le_mono; lia.
  - intros Ets Hts Hsp. rewrite <- Ets.
    rewrite !Z.quot_div_nonneg by lia.
    apply Z.div_le_compat_l; lia.
Qed.

End Interval.

Lemma DifficultyAdjustmentInterval_monotone_witness :
  let c1 := Samples.pow_params in
  let c2 := set_nPowTargetTimespan (28 * 24 * 60 * 60) Samples.pow_params in
  DifficultyAdjustmentInterval c1 = Some (2016, c1)
  /\ DifficultyAdjustmentInterval c2 = Some (4032, c2)
  /\ nPowTargetSpacing c1 = nPowTargetSpacing c2
  /\ 0 < nPowTargetSpacing c1
  /\ 0 <= nPowTargetTimespan c1 <= nPowTargetTimespan c2
  /\ 2016 <= 4032.
Proof.
  cbv zeta.
  set (c1 := Samples.pow_params).
  set (c2 := set_nPowTargetTimespan (28 * 24 * 60 * 60) Samples.pow_params).
  assert (H1 : DifficultyAdjustmentInterval c1 = Some (2016, c1))
    by (vm_compute; reflexivity).
  assert (H2 : DifficultyAdjustmentInterval c2 = Some (4032, c2))
    by (vm_compute; reflexivity).
  assert (Esp : nPowTargetSpacing c1 = nPowTargetSpacing c2) by reflexivity.
  assert (Hsp : 0 < nPowTargetSpacing c1) by (vm_compute; reflexivity).
  assert (Hts : 0 <= nPowTargetTimespan c1 <= nPowTargetTimespan c2)
    by (split; vm_compute; discriminate).
  exact (conj H1 (conj H2 (conj Esp (conj Hsp (conj Hts
           (proj1 (DifficultyAdjustmentInterval_monotone
                     c1 c2 c1 c2 2016 4032 H1 H2) Esp Hsp Hts)))))).
Defined.

Section Deployments.

(** ** The array of deployments and its enumerators *)

Lemma DeploymentPos_ordinal_bound (pos : DeploymentPos) :
  (DeploymentPos_ordinal pos < MAX_VERSION_BITS_DEPLOYMENTS)%nat.
Proof. destruct pos; unfold MAX_VERSION_BITS_DEPLOYMENTS; simpl; lia. Qed.

Lemma DeploymentPos_ordinal_inj (p q : DeploymentPos) :
  DeploymentPos_ordinal p = DeploymentPos_ordinal q -> p = q.
Proof. destruct p, q; simpl; intros H; try discriminate; reflexivity. Qed.

Lemma Params_wf_length (c : Params) :
  Params_wf c = true ->
  List.length (vDeployments c) = MAX_VERSION_BITS_DEPLOYMENTS.
Proof.
  intros H. destruct_params c. wf_split H. params_fields.
  apply Nat.eqb_eq. tauto.
Qed.


Lemma array_store_none {A : Type} (l : list A) (i : nat) (v : A) :
  (List.length l <= i)%nat -> array_store l i v = None.
Proof.
  revert i. induction l as [| x l IH]; intros i Hi; [reflexivity |].
  simpl in Hi. destruct i as [| i]; [lia |]. simpl.
  rewrite IH by lia. reflexivity.
Qed.





(** X6: the enumerators of [DeploymentPos] before
    [MAX_VERSION_BITS_DEPLOYMENTS] index the array [vDeployments] within
    its bounds: in every well-formed [Params] each of them names a
    deployment, that deployment's members are within their types, and
    two enumerators that name the same slot are the same enumerator. *)
Theorem vDeployments_at_in_bounds (c : Params) (pos : DeploymentPos) :
  Params_wf c = true ->
  (exists d, vDeployments_at c pos = Some d
             /\ BIP9Deployment_wf d = true)
  /\ (forall pos',
         DeploymentPos_ordinal pos = DeploymentPos_ordinal pos' ->
         pos = pos').
Proof.
  intros Hc. split; [| apply DeploymentPos_ordinal_inj].
  unfold vDeployments_at.
  destruct (nth_error (vDeployments c) (DeploymentPos_ordinal pos))
    as [d |] eqn:E.
  - exists d. split; [reflexivity |].
    apply (Params_wf_deployment c d Hc), (nth_error_In _ _ E).
  - apply nth_error_None in E. rewrite (Params_wf_length c Hc) in E.
    pose proof (DeploymentPos_ordinal_bound pos). lia.
Qed.

Lemma vDeployments_at_in_bounds_witness :
  Params_wf Samples.bit29_params = true
  /\ exists d, vDeployments_at Samples.bit29_params DEPLOYMENT_DYNA_FED
               = Some d
               /\ BIP9Deployment_wf d = true.
Proof.
  assert (Hc : Params_wf Samples.bit29_params = true)
    by (vm_compute; reflexivity).
  exact (conj Hc (proj1 (vDeployments_at_in_bounds Samples.bit29_params
                           DEPLOYMENT_DYNA_FED Hc))).
Defined.



End Deployments.

Section Queries.

Import Method.

(** ** Sequences of calls *)

(** Two calls that leave the object alone can be made in either order. *)
Lemma read_only_commute {A B : Type} (m1 : M A) (m2 : M B) (c : Params) :
  read_only m1 -> read_only m2 ->
  (a <- m1 ;; b <- m2 ;; ret (a, b)) c
  = (b <- m2 ;; a <- m1 ;; ret (a, b)) c.
Proof.
  intros H1 H2. unfold bind, ret.
  destruct (m1 c) as [[a c1] |] eqn:E1.
  - pose proof (H1 _ _ _ E1) as ->.
    destruct (m2 c) as [[b c2] |] eqn:E2; [| reflexivity].
    pose proof (H2 _ _ _ E2) as ->. rewrite E1. reflexivity.
  - destruct (m2 c) as [[b c2] |] eqn:E2; [| reflexivity].
    pose proof (H2 _ _ _ E2) as ->. rewrite E1. reflexivity.
Qed.

(** A second call returns what the first one did. *)
Lemma read_only_twice {A : Type} (m : M A) (c : Params) :
  read_only m ->
  (a <- m ;; a' <- m ;; ret (a, a')) c = (a <- m ;; ret (a, a)) c.
Proof.
  intros H. unfold bind, ret.
  destruct (m c) as [[a c1] |] eqn:E; [| reflexivity].
  pose proof (H _ _ _ E) as ->. rewrite E. reflexivity.
Qed.

(** X8: the two member functions can be called in either order with the
    same outcome (the pair of values and the object, or no result when
    the division is undefined), and calling either one twice returns the
    same value twice. *)
Theorem member_functions_commute (c : Params) :
  (q <- DifficultyAdjustmentInterval ;; b <- ParentChainHasPow ;;
   ret (q, b)) c
  = (b <- ParentChainHasPow ;; q <- DifficultyAdjustmentInterval ;;
     ret (q, b)) c
  /\ (q <- DifficultyAdjustmentInterval ;;
      q' <- DifficultyAdjustmentInterval ;; ret (q, q')) c
     = (q <- DifficultyAdjustmentInterval ;; ret (q, q)) c
  /\ (b <- ParentChainHasPow ;; b' <- ParentChainHasPow ;; ret (b, b')) c
     = (b <- ParentChainHasPow ;; ret (b, b)) c.
Proof.
  split; [| split].
  - apply read_only_commute.
    + apply DifficultyAdjustmentInterval_read_only.
    + apply ParentChainHasPow_read_only.
  - apply read_only_twice, DifficultyAdjustmentInterval_read_only.
  - apply read_only_twice, ParentChainHasPow_read_only.
Qed.

End Queries.

Section Sentinels.

(** ** The sentinels among the values of their member *)



End Sentinels.
